(** * DocuSight-AI: field state store, validation and overlay compositor

    A shallow embedding of the logic of the [AnalysisView] component
    (state transitions of the field list, the completion metric, the
    validation pass of [handleSave] and the canvas compositor of
    [handleDownloadFilledDoc]) together with the properties the
    specification states about it.

    Conventions of the embedding.
    - React state ([fields], [saveMessage], [isSaving],
      [isGeneratingDownload]) is an explicit record [State]; every
      handler is a function from state to state.
    - A JavaScript string is a [string]; its truthiness is
      non-emptiness.
    - The completion metric is computed in IEEE-754 binary64, as
      JavaScript does, with the standard library's executable
      specification [SpecFloat]; [Math.round] is written out on it.
    - The geometry of the compositor is computed over the rationals
      [Q]: the properties stated about it are properties of the exact
      values, which the double arithmetic of the browser approximates.
    - The browser (canvas, image decoding) is an explicit environment
      record; the canvas is the list of the drawing calls issued. *)

From Stdlib Require Import List Bool Arith ZArith QArith Qround Qminmax
  String Ascii Lia SpecFloat.
From Stdlib Require DecimalString.
From Stdlib Require Import Permutation.
Import ListNotations.

Local Open Scope string_scope.
Local Open Scope list_scope.

(** ** Field model ([types.ts]) *)

Inductive FieldType :=
| text | date | number | checkbox | currency
| signature | email | phone | address | image.

Inductive FieldStatus := filled | empty | uncertain | skipped.

Definition FieldType_eqb (a b : FieldType) : bool :=
  match a, b with
  | text, text | date, date | number, number | checkbox, checkbox
  | currency, currency | signature, signature | email, email
  | phone, phone | address, address | image, image => true
  | _, _ => false
  end.

Definition FieldStatus_eqb (a b : FieldStatus) : bool :=
  match a, b with
  | filled, filled | empty, empty | uncertain, uncertain
  | skipped, skipped => true
  | _, _ => false
  end.

(** [boundingBox?: number[]] holds [[ymin, xmin, ymax, xmax]]; the
    compositor destructures exactly these four components. *)
Definition BoundingBox : Type := (Q * Q * Q * Q)%type.

Record FieldData := mkField {
  key : string;
  value : string;
  label : string;
  type : FieldType;
  status : FieldStatus;
  required : bool;
  example : option string;
  confidence : option Q;
  explanation : option string;
  boundingBox : option BoundingBox
}.

(** The object spreads [{ ...f, value: v, status: s }] and
    [{ ...f, status: s }]. *)
Definition with_value_status (f : FieldData) (v : string) (s : FieldStatus)
  : FieldData :=
  mkField (key f) v (label f) (type f) s (required f)
          (example f) (confidence f) (explanation f) (boundingBox f).

Definition with_status (f : FieldData) (s : FieldStatus) : FieldData :=
  mkField (key f) (value f) (label f) (type f) s (required f)
          (example f) (confidence f) (explanation f) (boundingBox f).

(** Truthiness of a JavaScript string. *)
Definition truthy (s : string) : bool :=
  match s with
  | EmptyString => false
  | String _ _ => true
  end.

(** [v ? 'filled' : 'empty'] *)
Definition status_of_value (v : string) : FieldStatus :=
  if truthy v then filled else empty.

(** ** Component state *)

Inductive MessageType := success | error.

Record SaveMessage := mkMessage {
  msg_type : MessageType;
  msg_text : string
}.

Record State := mkState {
  fields : list FieldData;
  saveMessage : option SaveMessage;
  isSaving : bool;
  isGeneratingDownload : bool
}.

Definition setFields (g : list FieldData -> list FieldData) (st : State)
  : State :=
  mkState (g (fields st)) (saveMessage st) (isSaving st)
          (isGeneratingDownload st).

Definition setSaveMessage (m : option SaveMessage) (st : State) : State :=
  mkState (fields st) m (isSaving st) (isGeneratingDownload st).

Definition setIsSaving (b : bool) (st : State) : State :=
  mkState (fields st) (saveMessage st) b (isGeneratingDownload st).

Definition setIsGeneratingDownload (b : bool) (st : State) : State :=
  mkState (fields st) (saveMessage st) (isSaving st) b.

(** ** Field state store *)

(** [handleFieldChange]: the updater passed to [setFields], then the
    reset of a pending save message. *)
Definition changeField (k newValue : string) (f : FieldData) : FieldData :=
  if String.eqb (key f) k
  then with_value_status f newValue (status_of_value newValue)
  else f.

Definition handleFieldChange (k newValue : string) (st : State) : State :=
  let st1 := setFields (map (changeField k newValue)) st in
  match saveMessage st1 with
  | Some _ => setSaveMessage None st1
  | None => st1
  end.

(** [handleSkipField] *)
Definition skipField (k : string) (f : FieldData) : FieldData :=
  if String.eqb (key f) k
  then with_status f
         (if FieldStatus_eqb (status f) skipped
          then status_of_value (value f)
          else skipped)
  else f.

Definition handleSkipField (k : string) (st : State) : State :=
  setFields (map (skipField k)) st.

(** [clearImageField] *)
Definition clearImageField (k : string) (st : State) : State :=
  handleFieldChange k "" st.

(** ** Validation pass of [handleSave] *)

Definition isMissing (f : FieldData) : bool :=
  required f && FieldStatus_eqb (status f) empty.

Definition stillMissing (fs : list FieldData) : list FieldData :=
  filter isMissing fs.

(** Decimal rendering of a length inside a template literal. *)
Definition string_of_nat (n : nat) : string :=
  DecimalString.NilZero.string_of_uint (Nat.to_uint n).

Definition validationFailed (n : nat) : SaveMessage :=
  mkMessage error
    ("Validation Failed: " ++ string_of_nat n
       ++ " required field(s) are empty.").

Definition validationPassed : SaveMessage :=
  mkMessage success "Form validated and saved successfully!".

(** The awaited 800 ms timer only delays the pass; the closure reads
    [fields] of the state the handler was created in. *)
Definition handleSave (st : State) : State :=
  let st1 := setSaveMessage None (setIsSaving true st) in
  let missing := stillMissing (fields st) in
  let st2 :=
    if (0 <? List.length missing)%nat
    then setSaveMessage (Some (validationFailed (List.length missing))) st1
    else setSaveMessage (Some validationPassed) st1 in
  setIsSaving false st2.

(** ** JavaScript numbers of the completion metric

    [Number] is IEEE-754 binary64.  [SpecFloat] gives the format and
    its correctly rounded operations as executable functions on
    [spec_float]. *)

Module Number.

Definition prec : Z := 53.
Definition emax : Z := 1024.

Definition t : Type := spec_float.

(** An integer as a [Number] (exact below [2^53]). *)
Definition of_Z (z : Z) : t := binary_normalize prec emax z 0 false.
Definition of_nat (n : nat) : t := of_Z (Z.of_nat n).

Definition div (x y : t) : t := SFdiv prec emax x y.
Definition mul (x y : t) : t := SFmul prec emax x y.
Definition ltb (x y : t) : bool := SFltb x y.
Definition leb (x y : t) : bool := SFleb x y.

(** [Math.round]: the integer nearest to [x], ties towards
    [+Infinity]; that is [floor (x + 1/2)] on the exact value
    [(-1)^s * m * 2^e] of a finite [x].  Zeros, infinities and NaN
    are returned as they are, and a negative [x] that rounds to
    zero gives [-0]. *)
Definition round_Z (s : bool) (m : positive) (e : Z) : Z :=
  let sm := if s then Z.neg m else Z.pos m in
  if (0 <=? e)%Z
  then (sm * 2 ^ e)%Z
  else ((2 * sm + 2 ^ (- e)) / (2 * 2 ^ (- e)))%Z.

Definition round (x : t) : t :=
  match x with
  | S754_finite s m e =>
      let z := round_Z s m e in
      if (z =? 0)%Z then S754_zero s else of_Z z
  | _ => x
  end.

End Number.

(** ** Completion metric *)

Definition isSettled (f : FieldData) : bool :=
  FieldStatus_eqb (status f) filled || FieldStatus_eqb (status f) skipped.

Definition requiredFields (fs : list FieldData) : list FieldData :=
  filter required fs.

Definition filledRequired (fs : list FieldData) : nat :=
  List.length (filter isSettled (requiredFields fs)).

Definition completionRate (fs : list FieldData) : Number.t :=
  if (0 <? List.length (requiredFields fs))%nat
  then Number.round
         (Number.mul
            (Number.div (Number.of_nat (filledRequired fs))
                        (Number.of_nat (List.length (requiredFields fs))))
            (Number.of_Z 100))
  else Number.of_Z 100.

(** The metric the specification words: [round (100 * |F| / |R|)] on
    the exact quotient, halves rounded up, and [100] without required
    fields. *)
Definition spec_completion (fs : list FieldData) : Z :=
  let r := Z.of_nat (List.length (requiredFields fs)) in
  let f := Z.of_nat (filledRequired fs) in
  if (r =? 0)%Z then 100%Z else ((200 * f + r) / (2 * r))%Z.


(** ** Overlay compositor ([handleDownloadFilledDoc]) *)

(** The calls issued on the 2D context, in order.  [FillText] carries
    the font size set just before it; fill style, font family and
    baseline are constants of the source.  [DrawBroken] is the
    [drawImage] call made with a field image that failed to load (its
    natural size is 0, so the geometry passed is not finite). *)
Inductive CanvasCall :=
| DrawBase (src : string)
| DrawImage (src : string) (dx dy dw dh : Q)
| DrawBroken (src : string)
| FillText (txt : string) (fontSize : Z) (tx ty maxWidth : Q).

(** The browser as the compositor sees it: whether the canvas ref and
    its 2D context exist, and the natural size of the image an URL
    decodes to ([None] when [onerror] fires). *)
Record Browser := mkBrowser {
  canvasCurrent : bool;
  context2d : bool;
  decode : string -> option (positive * positive)
}.

(** Drawing is a computation over the list of calls issued so far
    that either returns or throws. *)
Definition Draw (A : Type) : Type :=
  list CanvasCall -> list CanvasCall * (A + string).

Definition ret {A : Type} (a : A) : Draw A := fun log => (log, inl a).

Definition throw {A : Type} (msg : string) : Draw A :=
  fun log => (log, inr msg).

Definition bind {A B : Type} (c : Draw A) (k : A -> Draw B) : Draw B :=
  fun log =>
    match c log with
    | (log', inl a) => k a log'
    | (log', inr msg) => (log', inr msg)
    end.

Definition emit (c : CanvasCall) : Draw unit :=
  fun log => (log ++ [c], inl tt).

Notation "x <- c ;; k" := (bind c (fun x => k))
  (at level 61, c at next level, right associativity).
Notation "c ;;; k" := (bind c (fun _ => k))
  (at level 61, right associativity).

(** [for (const x of xs) body] *)
Fixpoint forEach {A : Type} (body : A -> Draw unit) (xs : list A)
  : Draw unit :=
  match xs with
  | [] => ret tt
  | x :: rest => body x ;;; forEach body rest
  end.

(** [String.prototype.toLowerCase] on the ASCII letters. *)
Definition lower_ascii (c : ascii) : ascii :=
  let n := nat_of_ascii c in
  if ((65 <=? n) && (n <=? 90))%nat then ascii_of_nat (n + 32) else c.

Fixpoint toLowerCase (s : string) : string :=
  match s with
  | EmptyString => EmptyString
  | String c rest => String (lower_ascii c) (toLowerCase rest)
  end.

Definition isChecked (v : string) : bool :=
  String.eqb (toLowerCase v) "true"
  || String.eqb (toLowerCase v) "yes"
  || String.eqb (toLowerCase v) "checked".

(** U+2713 in UTF-8. *)
Definition checkmark : string :=
  String (ascii_of_nat 226)
    (String (ascii_of_nat 156) (String (ascii_of_nat 147) EmptyString)).

Local Open Scope Q_scope.

(** [Math.min (w / naturalWidth, h / naturalHeight)] *)
Definition fitScale (w h : Q) (nw nh : positive) : Q :=
  Qmin (w / inject_Z (Z.pos nw)) (h / inject_Z (Z.pos nh)).

(** The image branch, for a field image that decoded to [nw] x [nh]. *)
Definition drawFieldImage (src : string) (x y w h : Q) (nw nh : positive)
  : Draw unit :=
  let scale := fitScale w h nw nh in
  let drawW := inject_Z (Z.pos nw) * scale in
  let drawH := inject_Z (Z.pos nh) * scale in
  let drawX := x + (w - drawW) / 2 in
  let drawY := y + (h - drawH) / 2 in
  emit (DrawImage src drawX drawY drawW drawH).

(** [Math.floor (h * 0.6)] clamped by the two assignments. *)
Definition fontSizeOf (h : Q) : Z :=
  let fontSize := Qfloor (h * (6 # 10)) in
  let fontSize := if (fontSize <? 12)%Z then 12%Z else fontSize in
  if (fontSize >? 60)%Z then 60%Z else fontSize.

Definition drawFieldText (f : FieldData) (x y w h : Q) : Draw unit :=
  let fontSize := fontSizeOf h in
  let textY := y + h / 2 in
  let textX := x + 5 in
  if FieldType_eqb (type f) checkbox
  then
    if isChecked (value f)
    then emit (FillText checkmark fontSize textX textY (w - 10))
    else ret tt
  else emit (FillText (value f) fontSize textX textY (w - 10)).

(** One iteration of the loop over [fields]; [cw] and [ch] are the
    canvas width and height. *)
Definition drawField (br : Browser) (cw ch : Q) (f : FieldData)
  : Draw unit :=
  match boundingBox f with
  | None => ret tt
  | Some (ymin, xmin, ymax, xmax) =>
      if negb (truthy (value f)) || FieldStatus_eqb (status f) skipped
      then ret tt
      else
        let x := xmin * cw in
        let y := ymin * ch in
        let w := (xmax - xmin) * cw in
        let h := (ymax - ymin) * ch in
        if FieldType_eqb (type f) image
           || FieldType_eqb (type f) signature
        then
          match decode br (value f) with
          | Some (nw, nh) => drawFieldImage (value f) x y w h nw nh
          | None => emit (DrawBroken (value f))
          end
        else drawFieldText f x y w h
  end.

Local Close Scope Q_scope.

Inductive Orientation := landscape | portrait.

Record Pdf := mkPdf {
  orientation : Orientation;
  pageWidth : Z;
  pageHeight : Z
}.

(** [await] of the base image: rejects when [onerror] fires. *)
Definition loadBaseImage (br : Browser) (url : string)
  : Draw (positive * positive) :=
  match decode br url with
  | Some size => ret size
  | None => throw "Failed to load original image"
  end.

Definition require (b : bool) (msg : string) : Draw unit :=
  if b then ret tt else throw msg.

(** The body of the [try] block. *)
Definition composite (br : Browser) (url : string) (fs : list FieldData)
  : Draw Pdf :=
  require (canvasCurrent br) "Canvas not initialized" ;;;
  require (context2d br) "Could not get canvas context" ;;;
  size <- loadBaseImage br url ;;
  let width := Z.pos (fst size) in
  let height := Z.pos (snd size) in
  emit (DrawBase url) ;;;
  forEach (drawField br (inject_Z width) (inject_Z height)) fs ;;;
  ret (mkPdf (if (width >? height)%Z then landscape else portrait)
             width height).

Definition downloadFailed : SaveMessage :=
  mkMessage error "Failed to generate PDF. Please try again.".

(** What one run leaves outside the React state: the calls made on the
    canvas, the document saved and the error logged to the console.
    A missing or empty [imageUrl] returns at once. *)
Record Download := mkDownload {
  canvas : list CanvasCall;
  saved : option Pdf;
  logged : option string
}.

Definition handleDownloadFilledDoc (br : Browser) (imageUrl : option string)
  (st : State) : State * Download :=
  match imageUrl with
  | None => (st, mkDownload [] None None)
  | Some url =>
      if negb (truthy url) then (st, mkDownload [] None None)
      else
        let st1 := setIsGeneratingDownload true st in
        match composite br url (fields st) [] with
        | (calls, inl pdf) =>
            (setIsGeneratingDownload false st1,
             mkDownload calls (Some pdf) None)
        | (calls, inr msg) =>
            (setIsGeneratingDownload false
               (setSaveMessage (Some downloadFailed) st1),
             mkDownload calls None (Some msg))
        end
  end.

(** ** Specification-side definitions and sample data *)

(** A store with one skipped, required checkbox: the checkbox row stays
    clickable while skipped and calls [handleFieldChange]. *)
Definition skippedConsent : FieldData :=
  mkField "consent" "" "I agree" checkbox skipped true
          None None None None.

Definition skippedStore : State :=
  mkState [skippedConsent] None false false.

(** A required field the extraction marked [uncertain]. *)
Definition uncertainName : FieldData :=
  mkField "fullName" "J. Doe" "Full name" text uncertain true
          None None None None.

Definition uncertainStore : State :=
  mkState [uncertainName] None false false.

(** One required field still empty, one required field filled in. *)
Definition emptyRequired : FieldData :=
  mkField "dob" "" "Date of birth" date empty true None None None None.

Definition filledRequiredField : FieldData :=
  mkField "surname" "Doe" "Surname" text filled true None None None None.

(** Structural equality of numbers, and the comparison of the rate of
    the source with the rate of the specification on [f] settled
    fields out of [r] required ones. *)
Definition Number_eqb (x y : Number.t) : bool :=
  match x, y with
  | S754_zero a, S754_zero b => Bool.eqb a b
  | S754_infinity a, S754_infinity b => Bool.eqb a b
  | S754_nan, S754_nan => true
  | S754_finite a m e, S754_finite b n d =>
      Bool.eqb a b && Pos.eqb m n && Z.eqb e d
  | _, _ => false
  end.

Definition rate_agrees (f r : nat) : bool :=
  Number_eqb
    (Number.round
       (Number.mul (Number.div (Number.of_nat f) (Number.of_nat r))
                   (Number.of_Z 100)))
    (Number.of_Z ((200 * Z.of_nat f + Z.of_nat r) / (2 * Z.of_nat r))).

Definition rates_agree_below (n : nat) : bool :=
  forallb (fun r => forallb (fun f => rate_agrees f (S r)) (seq 0 (S (S r))))
          (seq 0 n).

(** A form with forty required fields of which the first twenty-three
    are filled in and the others are still empty. *)
Definition formField (i : nat) (s : FieldStatus) : FieldData :=
  mkField ("field" ++ string_of_nat i)
          (if FieldStatus_eqb s filled then "x" else "")
          "Entry" text s true None None None None.

Definition form40 : list FieldData :=
  map (fun i => formField i filled) (seq 0 23)
  ++ map (fun i => formField i empty) (seq 23 17).

(** The fields the extraction did not mark [uncertain]. *)
Definition notUncertain (f : FieldData) : bool :=
  negb (FieldStatus_eqb (status f) uncertain).

(** The guard of the loop:
    [!field.boundingBox || !field.value || field.status === 'skipped']. *)
Definition excluded (f : FieldData) : bool :=
  match boundingBox f with None => true | Some _ => false end
  || negb (truthy (value f))
  || FieldStatus_eqb (status f) skipped.

(** A text field that has a box but no value yet. *)
Definition blankBoxed : FieldData :=
  mkField "city" "" "City" text empty false None None None
          (Some (1 # 8, 1 # 8, 1 # 4, 1 # 2)%Q).

(** A browser with canvas and context in which the page decodes to
    200 x 100 and the photo to 100 x 100, and one in which no image
    decodes. *)
Definition okBrowser : Browser :=
  mkBrowser true true
    (fun url => if String.eqb url "blob:base" then Some (200, 100)%positive
                else if String.eqb url "data:photo"
                     then Some (100, 100)%positive
                     else None).

Definition noImageBrowser : Browser :=
  mkBrowser true true (fun _ => None).




(** ** Further handlers of [AnalysisView] *)

(** [onClick] of a checkbox row:
    [handleFieldChange(field.key, isChecked ? 'false' : 'true')]. *)
Definition clickCheckbox (f : FieldData) (st : State) : State :=
  handleFieldChange (key f) (if isChecked (value f) then "false" else "true")
                    st.



(** The fields carrying another key than [k]. *)
Definition otherThan (k : string) (f : FieldData) : bool :=
  negb (String.eqb (key f) k).

(** ** Upload checks ([UploadZone.tsx], [App.tsx]) *)

Record File := mkFile {
  file_name : string;
  file_type : string;
  file_size : N
}.

(** State of [UploadZone]. *)
Record Zone := mkZone {
  dragActive : bool;
  zoneError : option string
}.

(** [validateAndPassFile]: the new zone state and the file handed to
    [onFileSelect], if any. *)
Definition validateAndPassFile (file : File) (z : Zone)
  : Zone * option File :=
  if negb (String.prefix "image/" (file_type file))
     && negb (String.eqb (file_type file) "application/pdf")
  then (mkZone (dragActive z)
               (Some "Please upload an image (JPG, PNG) or PDF."), None)
  else if (10 * 1024 * 1024 <? file_size file)%N
  then (mkZone (dragActive z) (Some "File size exceeds 10MB."), None)
  else (mkZone (dragActive z) None, Some file).

Inductive DragEvent := dragenter | dragover | dragleave | drop.

(** [handleDrag] *)
Definition handleDrag (e : DragEvent) (z : Zone) : Zone :=
  match e with
  | dragenter | dragover => mkZone true (zoneError z)
  | dragleave => mkZone false (zoneError z)
  | drop => z
  end.

(** [handleDrop], with the first dropped file if there is one. *)
Definition handleDrop (dropped : option File) (z : Zone)
  : Zone * option File :=
  let z1 := mkZone false (zoneError z) in
  match dropped with
  | Some file => validateAndPassFile file z1
  | None => (z1, None)
  end.

(** [handleHiddenFileInputChange] of [App]: the alert shown and the
    file handed to [handleFileSelect], if any. *)
Definition handleHiddenFileInputChange (picked : option File)
  : option string * option File :=
  match picked with
  | None => (None, None)
  | Some file =>
      if negb (String.prefix "image/" (file_type file))
         && negb (String.eqb (file_type file) "application/pdf")
      then (Some "Please upload an image (JPG, PNG) or PDF.", None)
      else if (10 * 1024 * 1024 <? file_size file)%N
      then (Some "File size exceeds 10MB.", None)
      else (None, Some file)
  end.

(** ** Application state ([App.tsx]) *)

Inductive AppState := IDLE | ANALYZING | REVIEW | ERROR.

Record UploadedFile := mkUploaded {
  uf_name : string;
  uf_type : string;
  uf_url : string;
  uf_base64 : string
}.

Record DocumentAnalysis := mkAnalysis {
  documentType : string;
  summary : string;
  analysisFields : list FieldData;
  missingFields : list string;
  securityRisks : list string;
  actionableInsights : list string
}.

Record App := mkApp {
  appState : AppState;
  currentFile : option UploadedFile;
  analysisData : option DocumentAnalysis;
  errorMsg : option string
}.

Definition initialApp : App := mkApp IDLE None None None.

(** [handleReset] *)
Definition handleReset (a : App) : App := mkApp IDLE None None None.

(** [handleSidebarClick]: in [IDLE] it only opens the file picker. *)
Definition handleSidebarClick (a : App) : App :=
  match appState a with
  | IDLE => a
  | _ => handleReset a
  end.

(** [handleFileSelect] runs in two parts: the part before
    [await analyzeDocument(file)], and the continuation that runs when
    that promise settles, whatever happened to the state in between.
    [url] is what [URL.createObjectURL] returned. *)
Definition fileSelected (file : File) (url : string) (a : App) : App :=
  mkApp ANALYZING
        (Some (mkUploaded (file_name file) (file_type file) url ""))
        (analysisData a) None.

Definition analysisFailedMsg : string :=
  "Failed to analyze document. Please try again or check your API key.".

Definition analysisSettled (result : option DocumentAnalysis) (a : App)
  : App :=
  match result with
  | Some r => mkApp REVIEW (currentFile a) (Some r) (errorMsg a)
  | None => mkApp ERROR (currentFile a) (analysisData a)
                  (Some analysisFailedMsg)
  end.

(** What can happen to [App]; [pending] counts the analyses started
    and not yet settled, and a settlement needs one. *)
Inductive AppEvent :=
| SelectFile (file : File) (url : string)
| Settle (result : option DocumentAnalysis)
| ClickReset
| ClickSidebar.

Record Session := mkSession {
  shown : App;
  pending : nat
}.

Definition appStep (e : AppEvent) (s : Session) : Session :=
  match e with
  | SelectFile file url =>
      mkSession (fileSelected file url (shown s)) (S (pending s))
  | Settle result =>
      match pending s with
      | O => s
      | S n => mkSession (analysisSettled result (shown s)) n
      end
  | ClickReset => mkSession (handleReset (shown s)) (pending s)
  | ClickSidebar => mkSession (handleSidebarClick (shown s)) (pending s)
  end.

Definition appRun (es : list AppEvent) (s : Session) : Session :=
  fold_left (fun s e => appStep e s) es s.

(** Which of the four panes of the workspace is rendered. *)
Inductive Pane := UploadPane | SpinnerPane | ErrorPane | ReviewPane.

Definition workspace (a : App) : option Pane :=
  match appState a, currentFile a, analysisData a with
  | IDLE, _, _ => Some UploadPane
  | ANALYZING, Some _, _ => Some SpinnerPane
  | ERROR, _, _ => Some ErrorPane
  | REVIEW, Some _, Some _ => Some ReviewPane
  | _, _, _ => None
  end.

(** The state [AnalysisView] starts in: [useState(data.fields)]. *)
Definition initialState (data : DocumentAnalysis) : State :=
  mkState (analysisFields data) None false false.

(** What holds of [App] in every state it can reach. *)
Definition appInvariant (a : App) : Prop :=
  match appState a with
  | IDLE => currentFile a = None /\ analysisData a = None
            /\ errorMsg a = None
  | ANALYZING => currentFile a <> None /\ errorMsg a = None
  | REVIEW => analysisData a <> None
  | ERROR => errorMsg a = Some analysisFailedMsg
  end.

(** ** Payload of a data URL ([processFile] of [geminiService.ts]) *)

(** [String.prototype.split] with a one-character separator. *)
Fixpoint split (sep : ascii) (s : string) : list string :=
  match s with
  | EmptyString => [EmptyString]
  | String c rest =>
      if Ascii.eqb c sep
      then EmptyString :: split sep rest
      else match split sep rest with
           | piece :: more => String c piece :: more
           | [] => [String c EmptyString]
           end
  end.

(** [result.split(',')[1]]; [None] is [undefined]. *)
Definition base64Of (result : string) : option string :=
  nth_error (split "," result) 1.

(** [onload] resolves with the payload, [onerror] rejects. *)
Definition processFile (read : string + string) : option string + string :=
  match read with
  | inl result => inl (base64Of result)
  | inr err => inr err
  end.

Fixpoint contains (c : ascii) (s : string) : bool :=
  match s with
  | EmptyString => false
  | String d rest => Ascii.eqb d c || contains c rest
  end.

(** ** Counts behind the completion badge *)

(** The rate shown for [f] settled fields out of [r] required ones,
    the integer a number stands for, and the test that the rate is an
    integer from 0 to 100 which is 100 only for [f = r] and 0 only for
    [f = 0]. *)
Definition rateOf (f r : nat) : Number.t :=
  Number.round
    (Number.mul (Number.div (Number.of_nat f) (Number.of_nat r))
                (Number.of_Z 100)).

Definition integerOf (x : Number.t) : option Z :=
  match x with
  | S754_zero _ => Some 0%Z
  | S754_finite s m e => Some (Number.round_Z s m e)
  | _ => None
  end.

Definition badge_ok (f r : nat) : bool :=
  let x := rateOf f r in
  match integerOf x with
  | Some z =>
      Number_eqb x (Number.of_Z z)
      && (0 <=? z)%Z && (z <=? 100)%Z
      && Bool.eqb (z =? 100)%Z (f =? r)%nat
      && Bool.eqb (z =? 0)%Z (f =? 0)%nat
  | None => false
  end.

Definition badges_ok_below (n : nat) : bool :=
  forallb (fun r => forallb (fun f => badge_ok f (S r)) (seq 0 (S (S r))))
          (seq 0 n).

(** * Properties *)

(** ** Field state store *)

Section StoreFacts.

Variables (k newValue : string).

Lemma fields_handleFieldChange (st : State) :
  fields (handleFieldChange k newValue st)
  = map (changeField k newValue) (fields st).
Proof.
  unfold handleFieldChange.
  destruct (saveMessage (setFields (map (changeField k newValue)) st));
    reflexivity.
Qed.

Lemma saveMessage_handleFieldChange (st : State) :
  saveMessage (handleFieldChange k newValue st) = None.
Proof.
  unfold handleFieldChange.
  destruct (saveMessage (setFields (map (changeField k newValue)) st)) eqn:E;
    [reflexivity | exact E].
Qed.

Lemma changeField_other (f : FieldData) :
  key f <> k -> changeField k newValue f = f.
Proof.
  intros Hk. unfold changeField.
  destruct (String.eqb_spec (key f) k); [contradiction | reflexivity].
Qed.

Lemma changeField_same (f : FieldData) :
  key f = k ->
  changeField k newValue f
  = with_value_status f newValue (status_of_value newValue).
Proof.
  intros Hk. unfold changeField.
  destruct (String.eqb_spec (key f) k); [reflexivity | contradiction].
Qed.

Lemma skipField_same (f : FieldData) :
  key f = k ->
  skipField k f
  = with_status f (if FieldStatus_eqb (status f) skipped
                   then status_of_value (value f) else skipped).
Proof.
  intros Hk. unfold skipField.
  destruct (String.eqb_spec (key f) k); [reflexivity | contradiction].
Qed.

End StoreFacts.

Lemma FieldStatus_eqb_spec (a b : FieldStatus) :
  reflect (a = b) (FieldStatus_eqb a b).
Proof. destruct a, b; constructor; congruence. Qed.

Lemma truthy_false_iff (s : string) : truthy s = false <-> s = "".
Proof. destruct s; simpl; split; congruence. Qed.




(** C8: a key carried by no field makes [handleFieldChange] leave the
    field list as it is (values, statuses, length and order), and the
    handler reports nothing: no save message is pending afterwards and
    the two flags are untouched. *)
Theorem setValue_unknown_key_noop (st : State) (k v : string) :
  (forall f, In f (fields st) -> key f <> k) ->
  fields (handleFieldChange k v st) = fields st
  /\ saveMessage (handleFieldChange k v st) = None
  /\ isSaving (handleFieldChange k v st) = isSaving st
  /\ isGeneratingDownload (handleFieldChange k v st)
     = isGeneratingDownload st.
Proof.
  intros Hfresh. split; [| split; [| split]].
  - rewrite fields_handleFieldChange.
    induction (fields st) as [| f fs IH]; simpl; [reflexivity |].
    rewrite changeField_other by (apply Hfresh; left; reflexivity).
    f_equal. apply IH. intros g Hg. apply Hfresh. right. exact Hg.
  - apply saveMessage_handleFieldChange.
  - unfold handleFieldChange.
    destruct (saveMessage (setFields (map (changeField k v)) st));
      reflexivity.
  - unfold handleFieldChange.
    destruct (saveMessage (setFields (map (changeField k v)) st));
      reflexivity.
Qed.

Lemma setValue_unknown_key_noop_witness :
  fields (handleFieldChange "email" "a@b.c" skippedStore)
  = fields skippedStore
  /\ saveMessage (handleFieldChange "email" "a@b.c" skippedStore) = None
  /\ isSaving (handleFieldChange "email" "a@b.c" skippedStore)
     = isSaving skippedStore
  /\ isGeneratingDownload (handleFieldChange "email" "a@b.c" skippedStore)
     = isGeneratingDownload skippedStore.
Proof.
  apply (setValue_unknown_key_noop skippedStore "email" "a@b.c").
  intros f [<- | []]. discriminate.
Defined.

Lemma fields_handleSkipField (k : string) (st : State) :
  fields (handleSkipField k st) = map (skipField k) (fields st).
Proof. reflexivity. Qed.

Lemma skipField_twice (k : string) (f : FieldData) :
  key f = k ->
  skipField k (skipField k f)
  = with_status f
      (if FieldStatus_eqb (status f) skipped then skipped
       else status_of_value (value f)).
Proof.
  intros Hk.
  rewrite (skipField_same k f Hk).
  rewrite skipField_same by exact Hk.
  unfold with_status; simpl.
  destruct (status f); simpl; try reflexivity.
  unfold status_of_value. destruct (truthy (value f)); reflexivity.
Qed.

(** C2, as stated, fails for the initial status [uncertain]: the first
    toggle skips the field, the second derives the status from the
    value, and [uncertain] is not restored. *)
Lemma toggleSkip_twice_loses_uncertain :
  map status (fields uncertainStore) = [uncertain]
  /\ map status
       (fields (handleSkipField "fullName"
                  (handleSkipField "fullName" uncertainStore)))
     = [filled]
  /\ map value
       (fields (handleSkipField "fullName"
                  (handleSkipField "fullName" uncertainStore)))
     = map value (fields uncertainStore).
Proof. repeat split. Qed.

(** C2 (amended): two successive toggles of a field keep its value and
    give back its initial status exactly when that status was
    [skipped] or was the one derived from the value ([filled] with a
    non-empty value, [empty] with an empty one); from any other
    status, [uncertain] in particular, they end in the status derived
    from the value. *)
Theorem toggleSkip_twice
  (st : State) (k : string) (i : nat) (f : FieldData) :
  nth_error (fields st) i = Some f ->
  key f = k ->
  exists f2,
    nth_error (fields (handleSkipField k (handleSkipField k st))) i
    = Some f2
    /\ value f2 = value f
    /\ (status f2 = status f
        <-> status f = skipped \/ status f = status_of_value (value f))
    /\ (status f <> skipped -> status f2 = status_of_value (value f)).
Proof.
  intros Hi Hk.
  exists (skipField k (skipField k f)).
  rewrite !fields_handleSkipField, map_map, nth_error_map, Hi.
  split; [reflexivity |].
  rewrite (skipField_twice k f Hk). simpl.
  split; [reflexivity |].
  split.
  - destruct (FieldStatus_eqb_spec (status f) skipped) as [E | E].
    + split; [intros _; left; exact E | intros _; symmetry; exact E].
    + split; [intros H; right; symmetry; exact H |].
      intros [H | H]; [contradiction | symmetry; exact H].
  - intros E.
    destruct (FieldStatus_eqb_spec (status f) skipped);
      [contradiction | reflexivity].
Qed.

Lemma toggleSkip_twice_witness :
  exists f2,
    nth_error
      (fields (handleSkipField "consent"
                 (handleSkipField "consent" skippedStore))) 0
    = Some f2
    /\ value f2 = value skippedConsent
    /\ (status f2 = status skippedConsent
        <-> status skippedConsent = skipped
            \/ status skippedConsent
               = status_of_value (value skippedConsent))
    /\ (status skippedConsent <> skipped ->
        status f2 = status_of_value (value skippedConsent)).
Proof.
  apply (toggleSkip_twice skippedStore "consent" 0 skippedConsent);
    reflexivity.
Defined.

(** ** Validation *)

Lemma isMissing_iff (f : FieldData) :
  isMissing f = true <-> required f = true /\ status f = empty.
Proof.
  unfold isMissing. rewrite andb_true_iff.
  destruct (FieldStatus_eqb_spec (status f) empty); intuition congruence.
Qed.

Lemma stillMissing_nonempty_iff (fs : list FieldData) :
  (0 < List.length (stillMissing fs))%nat
  <-> exists f, In f fs /\ required f = true /\ status f = empty.
Proof.
  unfold stillMissing. split.
  - destruct (filter isMissing fs) as [| f rest] eqn:E; simpl; [lia |].
    intros _. exists f.
    assert (Hin : In f (filter isMissing fs)) by (rewrite E; left; reflexivity).
    apply filter_In in Hin. destruct Hin as [Hin Hm].
    apply isMissing_iff in Hm. tauto.
  - intros (f & Hin & Hr & Hs).
    assert (Hf : In f (filter isMissing fs)).
    { apply filter_In. split; [exact Hin |]. apply isMissing_iff. tauto. }
    destruct (filter isMissing fs); [contradiction | simpl; lia].
Qed.

(** C3: the validation pass of [handleSave] collects exactly the
    fields that are required and [empty] (same members, order and
    multiplicity as in the field list), fails with the error message
    carrying their number exactly when there is at least one, succeeds
    otherwise, and leaves the field list alone; with one required
    [empty] field and one required [filled] field it reports exactly
    one missing field. *)
Theorem validate_reports_required_empty (st : State) (f1 f2 : FieldData) :
  required f1 = true -> status f1 = empty ->
  required f2 = true -> status f2 = filled ->
  (forall f, In f (stillMissing (fields st))
             <-> In f (fields st) /\ required f = true /\ status f = empty)
  /\ (forall f fs, stillMissing (f :: fs)
                   = if required f && FieldStatus_eqb (status f) empty
                     then f :: stillMissing fs else stillMissing fs)
  /\ ((exists f, In f (fields st) /\ required f = true /\ status f = empty)
      -> saveMessage (handleSave st)
         = Some (mkMessage error
                   ("Validation Failed: "
                      ++ string_of_nat (List.length (stillMissing (fields st)))
                      ++ " required field(s) are empty.")))
  /\ (~ (exists f, In f (fields st) /\ required f = true /\ status f = empty)
      -> saveMessage (handleSave st) = Some validationPassed)
  /\ fields (handleSave st) = fields st
  /\ stillMissing [f1; f2] = [f1]
  /\ saveMessage (handleSave (mkState [f1; f2] None false false))
     = Some (mkMessage error
               "Validation Failed: 1 required field(s) are empty.").
Proof.
  intros R1 S1 R2 S2.
  assert (M1 : isMissing f1 = true) by (apply isMissing_iff; tauto).
  assert (M2 : isMissing f2 = false).
  { unfold isMissing. rewrite S2. apply andb_false_r. }
  split; [| split; [| split; [| split; [| split; [| split]]]]].
  - intros f. unfold stillMissing. rewrite filter_In, isMissing_iff.
    reflexivity.
  - reflexivity.
  - intros Hex. apply stillMissing_nonempty_iff in Hex.
    unfold handleSave. apply Nat.ltb_lt in Hex. rewrite Hex. reflexivity.
  - intros Hno. unfold handleSave.
    destruct (0 <? List.length (stillMissing (fields st)))%nat eqn:E;
      [| reflexivity].
    apply Nat.ltb_lt, stillMissing_nonempty_iff in E. contradiction.
  - unfold handleSave.
    destruct (0 <? List.length (stillMissing (fields st)))%nat; reflexivity.
  - unfold stillMissing. simpl. rewrite M1, M2. reflexivity.
  - unfold handleSave, stillMissing. simpl. rewrite M1, M2. reflexivity.
Qed.

Lemma validate_reports_required_empty_witness :
  stillMissing [emptyRequired; filledRequiredField] = [emptyRequired]
  /\ saveMessage
       (handleSave
          (mkState [emptyRequired; filledRequiredField] None false false))
     = Some (mkMessage error
               "Validation Failed: 1 required field(s) are empty.").
Proof.
  apply (validate_reports_required_empty
           skippedStore emptyRequired filledRequiredField);
    reflexivity.
Defined.

(** ** Completion metric *)

Lemma completionRate_no_required (fs : list FieldData) :
  requiredFields fs = [] -> completionRate fs = Number.of_Z 100.
Proof. unfold completionRate. intros ->. reflexivity. Qed.

(** [spec_completion] is the exact quotient rounded half up. *)
Lemma spec_completion_round (fs : list FieldData) :
  requiredFields fs <> [] ->
  spec_completion fs
  = Qfloor (inject_Z (100 * Z.of_nat (filledRequired fs))
            / inject_Z (Z.of_nat (List.length (requiredFields fs)))
            + (1 # 2))%Q.
Proof.
  intros Hne. unfold spec_completion.
  set (r := Z.of_nat (List.length (requiredFields fs))).
  set (f := Z.of_nat (filledRequired fs)).
  assert (Hr : (0 < r)%Z).
  { subst r. destruct (requiredFields fs); [contradiction | simpl; lia]. }
  destruct (Z.eqb_spec r 0); [lia |].
  destruct r as [| p | p]; try lia.
  assert (E : (inject_Z (100 * f) / inject_Z (Z.pos p) + (1 # 2)
               == (200 * f + Z.pos p) # (2 * p))%Q).
  { unfold Qeq, Qdiv, Qinv, Qmult, Qplus, inject_Z. cbn [Qnum Qden].
    rewrite !Pos2Z.inj_mul. lia. }
  rewrite E. unfold Qfloor. reflexivity.
Qed.

Lemma Number_eqb_eq (x y : Number.t) : Number_eqb x y = true -> x = y.
Proof.
  destruct x, y; simpl; try discriminate; try reflexivity.
  - intros H. apply Bool.eqb_prop in H. congruence.
  - intros H. apply Bool.eqb_prop in H. congruence.
  - rewrite !andb_true_iff. intros [[H1 H2] H3].
    apply Bool.eqb_prop in H1. apply Pos.eqb_eq in H2.
    apply Z.eqb_eq in H3. congruence.
Qed.

Lemma filledRequired_le (fs : list FieldData) :
  (filledRequired fs <= List.length (requiredFields fs))%nat.
Proof. unfold filledRequired. apply filter_length_le. Qed.

Lemma rates_agree_below_spec (n r f : nat) :
  rates_agree_below n = true ->
  (r < n)%nat -> (f <= S r)%nat -> rate_agrees f (S r) = true.
Proof.
  unfold rates_agree_below. intros H Hr Hf.
  rewrite forallb_forall in H. specialize (H r).
  rewrite forallb_forall in H. apply H; apply in_seq; lia.
Qed.

Lemma rates_agree_table : rates_agree_below 39 = true.
Proof. vm_compute. reflexivity. Qed.

(** On forms with fewer than forty required fields the source agrees
    with [spec_completion]: every pair of counts is evaluated. *)
Lemma completionRate_small_forms (fs : list FieldData) :
  (List.length (requiredFields fs) < 40)%nat ->
  completionRate fs = Number.of_Z (spec_completion fs).
Proof.
  intros Hlt. pose proof (filledRequired_le fs) as Hle.
  unfold completionRate, spec_completion.
  destruct (List.length (requiredFields fs)) as [| r] eqn:Er;
    [reflexivity |].
  change (0 <? S r)%nat with true. cbv iota.
  destruct (Z.eqb_spec (Z.of_nat (S r)) 0); [lia |].
  apply Number_eqb_eq.
  apply (rates_agree_below_spec 39 r (filledRequired fs) rates_agree_table);
    lia.
Qed.

(** C4 at [form40]: 23 of 40 required fields are filled, so
    [100 * |F| / |R|] is exactly 57.5 and rounds to 58, but the source
    multiplies the rounded quotient [23 / 40] by 100, which in
    binary64 is 57.49999999999999 (8092405580431359 * 2^-47, one unit
    in the last place below 57.5), and [Math.round] gives 57.
    Multiplying first keeps the tie: [Math.round (2300 / 40)] is 58. *)
Theorem completionRate_tie_rounds_down :
  List.length (requiredFields form40) = 40%nat
  /\ filledRequired form40 = 23%nat
  /\ NoDup (map key form40)
  /\ Number.mul (Number.div (Number.of_nat 23) (Number.of_nat 40))
                (Number.of_Z 100)
     = S754_finite false 8092405580431359 (-47)
  /\ Number.div (Number.of_Z (100 * 23)) (Number.of_Z 40)
     = S754_finite false 8092405580431360 (-47)
  /\ Number.round (Number.div (Number.of_Z (100 * 23)) (Number.of_Z 40))
     = Number.of_Z 58
  /\ completionRate form40 = Number.of_Z 57
  /\ spec_completion form40 = 58%Z
  /\ completionRate form40 <> Number.of_Z (spec_completion form40).
Proof.
  assert (Hkeys : NoDup (map key form40)).
  { assert (H : forallb (fun p => negb (existsb (String.eqb (fst p)) (snd p)))
                  ((fix tails (l : list string) :=
                      match l with
                      | [] => []
                      | x :: r => (x, r) :: tails r
                      end) (map key form40)) = true) by (vm_compute; reflexivity).
    revert H. generalize (map key form40). intros l.
    induction l as [| x r IH]; intros H; constructor.
    - simpl in H. apply andb_true_iff in H. destruct H as [H _].
      intros Hin. apply negb_true_iff in H.
      assert (existsb (String.eqb x) r = true).
      { apply existsb_exists. exists x. split; [exact Hin |].
        apply String.eqb_refl. }
      congruence.
    - apply IH. simpl in H. apply andb_true_iff in H. tauto. }
  repeat split; try exact Hkeys; try (vm_compute; reflexivity).
  vm_compute. discriminate.
Qed.

(** ** Uncertain fields *)

(** C10: fields of status [uncertain] never count as missing
    (dropping them all leaves the outcome of [handleSave] as it is),
    yet such a field is not counted as complete: a form whose only
    field is required and [uncertain] passes validation while its
    completion rate is 0, below 100. *)
Theorem uncertain_passes_validation_but_incomplete :
  (forall fs, stillMissing (filter notUncertain fs) = stillMissing fs)
  /\ (forall st, saveMessage (handleSave (setFields (filter notUncertain) st))
                 = saveMessage (handleSave st))
  /\ (forall k v l ty ex c e bb m s g,
        let f := mkField k v l ty uncertain true ex c e bb in
        saveMessage (handleSave (mkState [f] m s g)) = Some validationPassed
        /\ completionRate [f] = Number.of_Z 0
        /\ Number.ltb (completionRate [f]) (Number.of_Z 100) = true).
Proof.
  assert (H : forall fs,
             stillMissing (filter notUncertain fs) = stillMissing fs).
  { induction fs as [| f fs IH]; [reflexivity |].
    unfold stillMissing in *. simpl.
    unfold notUncertain at 1, isMissing at 2.
    destruct (status f) eqn:E; simpl; rewrite ?IH;
      unfold isMissing; rewrite ?E; simpl;
      rewrite ?andb_false_r; reflexivity. }
  split; [exact H | split].
  - intros st. unfold handleSave. simpl. rewrite H.
    destruct (0 <? List.length (stillMissing (fields st)))%nat; reflexivity.
  - intros. repeat split.
Qed.

(** ** Overlay compositor *)

Lemma excluded_iff (f : FieldData) :
  excluded f = true
  <-> boundingBox f = None \/ value f = "" \/ status f = skipped.
Proof.
  unfold excluded. rewrite !orb_true_iff, negb_true_iff, truthy_false_iff.
  destruct (FieldStatus_eqb_spec (status f) skipped);
    destruct (boundingBox f); intuition congruence.
Qed.

Lemma drawField_excluded (br : Browser) (cw ch : Q) (f : FieldData) :
  excluded f = true -> forall log, drawField br cw ch f log = (log, inl tt).
Proof.
  unfold excluded, drawField. intros H log.
  destruct (boundingBox f) as [[[[ymin xmin] ymax] xmax] |];
    [| reflexivity].
  simpl in H. rewrite H. reflexivity.
Qed.

Lemma forEach_app {A : Type} (body : A -> Draw unit) (xs ys : list A)
  (log : list CanvasCall) :
  forEach body (xs ++ ys) log
  = (forEach body xs ;;; forEach body ys) log.
Proof.
  revert log. induction xs as [| x xs IH]; intros log; simpl.
  - reflexivity.
  - unfold bind in *. destruct (body x log) as [log' [[] | msg]];
      [apply IH | reflexivity].
Qed.

Lemma forEach_drawField_filter (br : Browser) (cw ch : Q)
  (fs : list FieldData) (log : list CanvasCall) :
  forEach (drawField br cw ch) (filter (fun f => negb (excluded f)) fs) log
  = forEach (drawField br cw ch) fs log.
Proof.
  revert log. induction fs as [| f fs IH]; intros log; [reflexivity |].
  simpl. destruct (excluded f) eqn:E; simpl.
  - unfold bind. rewrite (drawField_excluded br cw ch f E). apply IH.
  - unfold bind. destruct (drawField br cw ch f log) as [log' [[] | msg]];
      [apply IH | reflexivity].
Qed.

Lemma composite_filter (br : Browser) (url : string) (fs : list FieldData)
  (log : list CanvasCall) :
  composite br url (filter (fun f => negb (excluded f)) fs) log
  = composite br url fs log.
Proof.
  unfold composite, bind.
  destruct (require (canvasCurrent br) "Canvas not initialized" log)
    as [l1 [[] | m1]]; [| reflexivity].
  destruct (require (context2d br) "Could not get canvas context" l1)
    as [l2 [[] | m2]]; [| reflexivity].
  destruct (loadBaseImage br url l2) as [l3 [size | m3]]; [| reflexivity].
  destruct (emit (DrawBase url) l3) as [l4 [[] | m4]]; [| reflexivity].
  rewrite forEach_drawField_filter. reflexivity.
Qed.

(** C7: a field without bounding box, with an empty value or of status
    [skipped] makes its iteration of the loop issue no canvas call and
    throw nothing; the whole run (calls issued, document saved, error
    logged, resulting state) is the one of the field list without such
    fields; and a run over a single field that has a box but an empty
    value draws the base image only and saves the document without
    error. *)
Theorem excluded_fields_draw_nothing
  (br : Browser) (cw ch : Q) (f : FieldData) :
  boundingBox f = None \/ value f = "" \/ status f = skipped ->
  (forall log, drawField br cw ch f log = (log, inl tt))
  /\ (forall url fs1 fs2 log,
        composite br url (fs1 ++ f :: fs2) log
        = composite br url (fs1 ++ fs2) log)
  /\ (forall imageUrl st,
        handleDownloadFilledDoc br imageUrl
          (setFields (filter (fun g => negb (excluded g))) st)
        = (setFields (filter (fun g => negb (excluded g)))
             (fst (handleDownloadFilledDoc br imageUrl st)),
           snd (handleDownloadFilledDoc br imageUrl st)))
  /\ (forall url nw nh bb st,
        truthy url = true ->
        canvasCurrent br = true -> context2d br = true ->
        decode br url = Some (nw, nh) ->
        fields st = [mkField (key f) "" (label f) (type f) (status f)
                             (required f) (example f) (confidence f)
                             (explanation f) (Some bb)] ->
        snd (handleDownloadFilledDoc br (Some url) st)
        = mkDownload [DrawBase url]
            (Some (mkPdf (if (Z.pos nw >? Z.pos nh)%Z
                          then landscape else portrait)
                         (Z.pos nw) (Z.pos nh)))
            None
        /\ saveMessage (fst (handleDownloadFilledDoc br (Some url) st))
           = saveMessage st).
Proof.
  intros Hex. apply excluded_iff in Hex.
  split; [| split; [| split]].
  - intros log. apply drawField_excluded. exact Hex.
  - intros url fs1 fs2 log.
    rewrite <- (composite_filter br url (fs1 ++ f :: fs2)).
    rewrite <- (composite_filter br url (fs1 ++ fs2)).
    rewrite !filter_app. simpl. rewrite Hex. reflexivity.
  - intros [url |] st; [| reflexivity].
    unfold handleDownloadFilledDoc.
    destruct (truthy url); [| reflexivity]. simpl.
    rewrite composite_filter.
    destruct (composite br url (fields st) []) as [calls [pdf | msg]];
      reflexivity.
  - intros url nw nh bb st Hurl Hc Hx Hd Hfs.
    unfold handleDownloadFilledDoc, composite, bind, loadBaseImage, require.
    rewrite Hurl, Hc, Hx, Hd, Hfs. simpl.
    unfold bind, drawField. simpl.
    destruct bb as [[[ymin xmin] ymax] xmax]. simpl.
    split; reflexivity.
Qed.

Lemma excluded_fields_draw_nothing_witness :
  snd (handleDownloadFilledDoc okBrowser (Some "blob:base")
         (mkState [blankBoxed] None false false))
  = mkDownload [DrawBase "blob:base"]
      (Some (mkPdf landscape 200 100)) None.
Proof.
  destruct (excluded_fields_draw_nothing okBrowser 200 100 blankBoxed)
    as (_ & _ & _ & H).
  - right; left; reflexivity.
  - apply (H "blob:base" 200%positive 100%positive
             (1 # 8, 1 # 8, 1 # 4, 1 # 2)%Q
             (mkState [blankBoxed] None false false));
      reflexivity.
Defined.

(** C6: when the base image fails to decode, the run issues no canvas
    call at all (so no field is drawn), saves no document, logs the
    error and puts the failure message into [saveMessage]; the field
    list is the one before the run, and the busy flag is cleared.
    With canvas and context present the error logged is the one of
    the image load. *)
Theorem base_decode_failure_aborts
  (br : Browser) (url : string) (st : State) :
  truthy url = true ->
  decode br url = None ->
  let r := handleDownloadFilledDoc br (Some url) st in
  canvas (snd r) = []
  /\ saved (snd r) = None
  /\ (exists msg, logged (snd r) = Some msg)
  /\ (canvasCurrent br = true -> context2d br = true ->
      logged (snd r) = Some "Failed to load original image")
  /\ saveMessage (fst r) = Some downloadFailed
  /\ msg_type downloadFailed = error
  /\ fields (fst r) = fields st
  /\ isSaving (fst r) = isSaving st
  /\ isGeneratingDownload (fst r) = false.
Proof.
  intros Hurl Hd. unfold handleDownloadFilledDoc. rewrite Hurl. simpl.
  unfold composite, bind, require, loadBaseImage. rewrite Hd.
  destruct (canvasCurrent br), (context2d br); simpl;
    repeat split; eauto; intros; discriminate.
Qed.

Lemma base_decode_failure_aborts_witness :
  let r := handleDownloadFilledDoc noImageBrowser (Some "blob:base")
             skippedStore in
  canvas (snd r) = []
  /\ saved (snd r) = None
  /\ (exists msg, logged (snd r) = Some msg)
  /\ (canvasCurrent noImageBrowser = true ->
      context2d noImageBrowser = true ->
      logged (snd r) = Some "Failed to load original image")
  /\ saveMessage (fst r) = Some downloadFailed
  /\ msg_type downloadFailed = error
  /\ fields (fst r) = fields skippedStore
  /\ isSaving (fst r) = isSaving skippedStore
  /\ isGeneratingDownload (fst r) = false.
Proof.
  apply (base_decode_failure_aborts noImageBrowser "blob:base" skippedStore);
    reflexivity.
Defined.

(** *** Image fit *)

Local Open Scope Q_scope.



Section FitScale.

Variables (w h : Q) (nw nh : positive).






End FitScale.




Local Close Scope Q_scope.

(** *** Font size *)





(** The three sample heights in binary64, where [0.6] is the double
    5404319552844595 * 2^-53: the products are the doubles 6, 120 and
    30, so the exact values used above are the ones the browser
    computes. *)
Lemma font_size_samples_binary64 :
  let c := S754_finite false 5404319552844595 (-53) in
  Number.mul (Number.of_Z 10) c = Number.of_Z 6
  /\ Number.mul (Number.of_Z 200) c = Number.of_Z 120
  /\ Number.mul (Number.of_Z 50) c = Number.of_Z 30.
Proof. repeat split; vm_compute; reflexivity. Qed.

(** * Further properties of the field store *)

Lemma handleFieldChange_eq (k v : string) (st : State) :
  handleFieldChange k v st
  = mkState (map (changeField k v) (fields st)) None
            (isSaving st) (isGeneratingDownload st).
Proof.
  unfold handleFieldChange, setFields, setSaveMessage. simpl.
  destruct (saveMessage st); reflexivity.
Qed.

Lemma changeField_cases (k v : string) (f : FieldData) :
  (key f = k
   /\ changeField k v f = with_value_status f v (status_of_value v))
  \/ (key f <> k /\ changeField k v f = f).
Proof.
  unfold changeField. destruct (String.eqb_spec (key f) k); auto.
Qed.

Lemma skipField_cases (k : string) (f : FieldData) :
  (key f = k
   /\ skipField k f
      = with_status f (if FieldStatus_eqb (status f) skipped
                       then status_of_value (value f) else skipped))
  \/ (key f <> k /\ skipField k f = f).
Proof.
  unfold skipField. destruct (String.eqb_spec (key f) k); auto.
Qed.

Lemma key_changeField (k v : string) (f : FieldData) :
  key (changeField k v f) = key f.
Proof. destruct (changeField_cases k v f) as [[_ ->] | [_ ->]]; reflexivity. Qed.

Lemma key_skipField (k : string) (f : FieldData) :
  key (skipField k f) = key f.
Proof. destruct (skipField_cases k f) as [[_ ->] | [_ ->]]; reflexivity. Qed.

Lemma status_of_value_not_skipped (v : string) :
  FieldStatus_eqb (status_of_value v) skipped = false.
Proof. unfold status_of_value. destruct (truthy v); reflexivity. Qed.

(** X1: neither an edit nor a skip adds, removes or reorders fields, and
    neither touches key, label, type, required flag or bounding box of
    any field; a skip leaves every value alone as well. *)
Theorem edits_keep_structure (st : State) (k v : string) :
  let edited := fields (handleFieldChange k v st) in
  let toggled := fields (handleSkipField k st) in
  List.length edited = List.length (fields st)
  /\ map key edited = map key (fields st)
  /\ map label edited = map label (fields st)
  /\ map type edited = map type (fields st)
  /\ map required edited = map required (fields st)
  /\ map boundingBox edited = map boundingBox (fields st)
  /\ List.length toggled = List.length (fields st)
  /\ map key toggled = map key (fields st)
  /\ map label toggled = map label (fields st)
  /\ map type toggled = map type (fields st)
  /\ map required toggled = map required (fields st)
  /\ map boundingBox toggled = map boundingBox (fields st)
  /\ map value toggled = map value (fields st).
Proof.
  intros edited toggled. subst edited toggled.
  rewrite fields_handleFieldChange, fields_handleSkipField.
  rewrite !length_map, !map_map.
  assert (E : forall (A : Type) (p : FieldData -> A),
             (forall f s, p (with_value_status f v s) = p f) ->
             map (fun f => p (changeField k v f)) (fields st)
             = map p (fields st)).
  { intros A p Hp. apply map_ext. intros f.
    destruct (changeField_cases k v f) as [[_ ->] | [_ ->]];
      [apply Hp | reflexivity]. }
  assert (T : forall (A : Type) (p : FieldData -> A),
             (forall f s, p (with_status f s) = p f) ->
             map (fun f => p (skipField k f)) (fields st)
             = map p (fields st)).
  { intros A p Hp. apply map_ext. intros f.
    destruct (skipField_cases k f) as [[_ ->] | [_ ->]];
      [apply Hp | reflexivity]. }
  repeat split; try (apply E; reflexivity); apply T; reflexivity.
Qed.

(** X2: the last edit of a key wins: a second edit of the same key gives
    the state the second edit alone gives; and edits of two different
    keys can be made in either order. *)
Theorem edits_compose (st : State) (k k' v v' : string) :
  k <> k' ->
  handleFieldChange k v' (handleFieldChange k v st)
  = handleFieldChange k v' st
  /\ handleFieldChange k' v' (handleFieldChange k v st)
     = handleFieldChange k v (handleFieldChange k' v' st).
Proof.
  intros Hkk. rewrite !handleFieldChange_eq. simpl. rewrite !map_map.
  split; f_equal; apply map_ext; intros f.
  - destruct (changeField_cases k v f) as [[Hk ->] | [Hk ->]];
      [| reflexivity].
    unfold changeField. simpl. rewrite Hk, String.eqb_refl. reflexivity.
  - destruct (changeField_cases k v f) as [[Hk E] | [Hk E]];
      destruct (changeField_cases k' v' f) as [[Hk' E'] | [Hk' E']];
      rewrite E, E', ?E; try congruence.
    + apply changeField_other. simpl. exact Hk'.
    + symmetry. apply changeField_other. simpl. exact Hk.
Qed.

Lemma edits_compose_witness :
  handleFieldChange "consent" "yes"
    (handleFieldChange "consent" "no" skippedStore)
  = handleFieldChange "consent" "yes" skippedStore
  /\ handleFieldChange "email" "yes"
       (handleFieldChange "consent" "no" skippedStore)
     = handleFieldChange "consent" "no"
         (handleFieldChange "email" "yes" skippedStore).
Proof.
  apply (edits_compose skippedStore "consent" "email" "no" "yes").
  discriminate.
Defined.

(** X3: after an edit of a key, skipping that key and including it again
    gives back exactly the state the edit left. *)
Theorem skip_twice_after_edit (st : State) (k v : string) :
  handleSkipField k (handleSkipField k (handleFieldChange k v st))
  = handleFieldChange k v st.
Proof.
  rewrite handleFieldChange_eq.
  unfold handleSkipField, setFields. simpl. rewrite !map_map.
  f_equal. apply map_ext. intros f.
  destruct (changeField_cases k v f) as [[Hk ->] | [Hk ->]].
  - rewrite skipField_twice by exact Hk. simpl.
    rewrite status_of_value_not_skipped. reflexivity.
  - unfold skipField.
    destruct (String.eqb_spec (key f) k); [contradiction |].
    destruct (String.eqb_spec (key f) k); [contradiction | reflexivity].
Qed.

(** X4: a key carried by no field makes [handleSkipField] return the state
    it was given. *)
Theorem skip_unknown_key_noop (st : State) (k : string) :
  (forall f, In f (fields st) -> key f <> k) ->
  handleSkipField k st = st.
Proof.
  intros Hfresh. destruct st as [fs m s g]. unfold handleSkipField, setFields.
  simpl in *. f_equal.
  induction fs as [| f fs IH]; [reflexivity |]. simpl.
  destruct (skipField_cases k f) as [[Hk _] | [_ ->]].
  - exfalso. apply (Hfresh f); [left; reflexivity | exact Hk].
  - f_equal. apply IH. intros g' Hg. apply Hfresh. right. exact Hg.
Qed.

Lemma skip_unknown_key_noop_witness :
  handleSkipField "email" skippedStore = skippedStore.
Proof.
  apply (skip_unknown_key_noop skippedStore "email").
  intros f [<- | []]. discriminate.
Defined.

(** ** Edits, skips and validation *)

Lemma filter_map_commute {A : Type} (p : A -> bool) (g : A -> A)
  (q : A -> bool) (l : list A) :
  (forall x, In x l -> q x = true -> p (g x) = false) ->
  (forall x, In x l -> q x = false -> g x = x) ->
  filter p (map g l) = filter (fun x => negb (q x)) (filter p l).
Proof.
  intros Hq Hn. induction l as [| x l IH]; [reflexivity |]. simpl.
  assert (IH' : filter p (map g l)
                = filter (fun x => negb (q x)) (filter p l)).
  { apply IH; intros y Hy; [apply Hq | apply Hn]; right; exact Hy. }
  destruct (q x) eqn:Eq.
  - rewrite (Hq x (or_introl eq_refl) Eq).
    destruct (p x); simpl; rewrite ?Eq; exact IH'.
  - rewrite (Hn x (or_introl eq_refl) Eq).
    destruct (p x); simpl; rewrite ?Eq; simpl; rewrite IH'; reflexivity.
Qed.

Lemma handleSave_passes (st : State) :
  stillMissing (fields st) = [] ->
  saveMessage (handleSave st) = Some validationPassed.
Proof. unfold handleSave. intros ->. reflexivity. Qed.

(** X5: giving a key a non-empty value removes the fields of that key from
    the missing ones and changes nothing else about them. *)
Theorem edit_clears_missing (st : State) (k v : string) :
  v <> "" ->
  stillMissing (fields (handleFieldChange k v st))
  = filter (otherThan k) (stillMissing (fields st)).
Proof.
  intros Hv. rewrite fields_handleFieldChange. unfold stillMissing.
  apply (filter_map_commute isMissing (changeField k v)
           (fun f => String.eqb (key f) k)).
  - intros f _ Hk. apply String.eqb_eq in Hk.
    rewrite (changeField_same k v f Hk). unfold isMissing. simpl.
    unfold status_of_value. destruct v; [contradiction |].
    simpl. apply andb_false_r.
  - intros f _ Hk. apply changeField_other.
    intros E. apply String.eqb_eq in E. congruence.
Qed.

Lemma edit_clears_missing_witness :
  stillMissing
    (fields (handleFieldChange "dob" "1990-01-01"
               (mkState [emptyRequired; filledRequiredField]
                        None false false)))
  = filter (otherThan "dob")
      (stillMissing [emptyRequired; filledRequiredField]).
Proof.
  apply (edit_clears_missing
           (mkState [emptyRequired; filledRequiredField] None false false)
           "dob" "1990-01-01").
  discriminate.
Defined.

(** X6: skipping a key none of whose fields is skipped yet removes the
    fields of that key from the missing ones; if they were the only
    missing ones, the next save passes. *)
Theorem skip_clears_missing (st : State) (k : string) :
  (forall f, In f (fields st) -> key f = k -> status f <> skipped) ->
  stillMissing (fields (handleSkipField k st))
  = filter (otherThan k) (stillMissing (fields st))
  /\ ((forall f, In f (stillMissing (fields st)) -> key f = k) ->
      saveMessage (handleSave (handleSkipField k st))
      = Some validationPassed).
Proof.
  intros Hns.
  assert (E : stillMissing (fields (handleSkipField k st))
              = filter (otherThan k) (stillMissing (fields st))).
  { rewrite fields_handleSkipField. unfold stillMissing.
    apply (filter_map_commute isMissing (skipField k)
             (fun f => String.eqb (key f) k)).
    - intros f Hin Hk. apply String.eqb_eq in Hk.
      rewrite (skipField_same k f Hk). unfold isMissing. simpl.
      destruct (FieldStatus_eqb_spec (status f) skipped) as [Es | _].
      + exfalso. exact (Hns f Hin Hk Es).
      + apply andb_false_r.
    - intros f _ Hk. destruct (skipField_cases k f) as [[Hk' _] | [_ ->]];
        [| reflexivity].
      apply String.eqb_eq in Hk'. congruence. }
  split; [exact E |].
  intros Honly. apply handleSave_passes. rewrite E.
  revert Honly. generalize (stillMissing (fields st)).
  induction l as [| f l IH]; intros Honly; [reflexivity |].
  simpl. unfold otherThan at 1.
  rewrite (proj2 (String.eqb_eq (key f) k) (Honly f (or_introl eq_refl))).
  simpl. apply IH. intros g Hg. apply Honly. right. exact Hg.
Qed.

Lemma skip_clears_missing_witness :
  stillMissing
    (fields (handleSkipField "dob"
               (mkState [emptyRequired; filledRequiredField]
                        None false false)))
  = filter (otherThan "dob")
      (stillMissing [emptyRequired; filledRequiredField])
  /\ ((forall f, In f (stillMissing [emptyRequired; filledRequiredField]) ->
                 key f = "dob") ->
      saveMessage
        (handleSave
           (handleSkipField "dob"
              (mkState [emptyRequired; filledRequiredField]
                       None false false)))
      = Some validationPassed).
Proof.
  apply (skip_clears_missing
           (mkState [emptyRequired; filledRequiredField] None false false)
           "dob").
  intros f Hin _. simpl in Hin.
  destruct Hin as [<- | [<- | []]]; discriminate.
Defined.

(** X7: clearing a key that a required field carries makes the next save
    fail, whatever the status of that field was, [skipped] included. *)
Theorem clear_required_fails (st : State) (k : string) (f : FieldData) :
  In f (fields st) -> key f = k -> required f = true ->
  exists n, (0 < n)%nat
            /\ saveMessage (handleSave (clearImageField k st))
               = Some (validationFailed n).
Proof.
  intros Hin Hk Hr.
  exists (List.length (stillMissing (fields (clearImageField k st)))).
  assert (Hpos : (0 < List.length
                        (stillMissing (fields (clearImageField k st))))%nat).
  { apply stillMissing_nonempty_iff.
    exists (with_value_status f "" empty). split; [| split].
    - unfold clearImageField. rewrite fields_handleFieldChange.
      apply in_map_iff. exists f. split; [| exact Hin].
      apply changeField_same. exact Hk.
    - exact Hr.
    - reflexivity. }
  split; [exact Hpos |].
  unfold handleSave. apply Nat.ltb_lt in Hpos. rewrite Hpos. reflexivity.
Qed.

Lemma clear_required_fails_witness :
  exists n, (0 < n)%nat
            /\ saveMessage (handleSave (clearImageField "consent" skippedStore))
               = Some (validationFailed n).
Proof.
  apply (clear_required_fails skippedStore "consent" skippedConsent);
    [left; reflexivity | reflexivity | reflexivity].
Defined.

(** X8: when every required field counts as settled (filled or skipped)
    the save passes; the counts of the completion badge never hide a
    missing field. *)
Theorem all_settled_passes (st : State) :
  filledRequired (fields st) = List.length (requiredFields (fields st)) ->
  saveMessage (handleSave st) = Some validationPassed.
Proof.
  intros Hall. apply handleSave_passes.
  unfold filledRequired, requiredFields, stillMissing in *.
  induction (fields st) as [| f fs IH]; [reflexivity |].
  simpl in *. unfold isMissing at 1.
  destruct (required f) eqn:Er; simpl in *.
  - destruct (isSettled f) eqn:Es; simpl in Hall.
    + injection Hall as Hall.
      unfold isSettled in Es.
      destruct (status f); simpl in *; try discriminate; apply IH; exact Hall.
    + pose proof (filter_length_le isSettled (filter required fs)). lia.
  - apply IH. exact Hall.
Qed.

Lemma all_settled_passes_witness :
  saveMessage (handleSave skippedStore) = Some validationPassed.
Proof. apply (all_settled_passes skippedStore). reflexivity. Defined.

(** ** Checkbox rows *)

(** X9: a click on a checkbox row flips whether the field counts as
    checked and leaves it [filled] with the value ["true"] or
    ["false"], so that a required checkbox is never missing after a
    click, ticked or not; a second click gives back the checked state
    the row had. *)
Theorem checkbox_click_flips (st : State) (i : nat) (f : FieldData) :
  nth_error (fields st) i = Some f ->
  exists f1,
    nth_error (fields (clickCheckbox f st)) i = Some f1
    /\ isChecked (value f1) = negb (isChecked (value f))
    /\ (value f1 = "true" \/ value f1 = "false")
    /\ status f1 = filled
    /\ isMissing f1 = false
    /\ exists f2,
         nth_error (fields (clickCheckbox f1 (clickCheckbox f st))) i
         = Some f2
         /\ isChecked (value f2) = isChecked (value f)
         /\ status f2 = filled.
Proof.
  intros Hi. unfold clickCheckbox.
  set (v1 := if isChecked (value f) then "false" else "true").
  exists (with_value_status f v1 (status_of_value v1)).
  assert (H1 : nth_error (fields (handleFieldChange (key f) v1 st)) i
               = Some (with_value_status f v1 (status_of_value v1))).
  { rewrite fields_handleFieldChange, nth_error_map, Hi. simpl.
    rewrite changeField_same by reflexivity. reflexivity. }
  split; [exact H1 |]. simpl.
  assert (Hv : isChecked v1 = negb (isChecked (value f))
               /\ (v1 = "true" \/ v1 = "false")
               /\ status_of_value v1 = filled).
  { subst v1. destruct (isChecked (value f)); repeat split; auto. }
  destruct Hv as (Hc & Hv & Hs).
  split; [exact Hc |]. split; [exact Hv |]. split; [exact Hs |].
  split; [unfold isMissing; simpl; rewrite Hs; apply andb_false_r |].
  set (v2 := if isChecked v1 then "false" else "true").
  exists (with_value_status (with_value_status f v1 (status_of_value v1))
            v2 (status_of_value v2)).
  split; [| split].
  - rewrite fields_handleFieldChange, nth_error_map, H1. simpl.
    rewrite changeField_same by reflexivity. reflexivity.
  - simpl. subst v2. rewrite Hc.
    destruct (isChecked (value f)); reflexivity.
  - simpl. subst v2. destruct (isChecked v1); reflexivity.
Qed.

Lemma checkbox_click_flips_witness :
  exists f1,
    nth_error (fields (clickCheckbox skippedConsent skippedStore)) 0 = Some f1
    /\ isChecked (value f1) = negb (isChecked (value skippedConsent))
    /\ (value f1 = "true" \/ value f1 = "false")
    /\ status f1 = filled
    /\ isMissing f1 = false
    /\ exists f2,
         nth_error
           (fields (clickCheckbox f1 (clickCheckbox skippedConsent
                                        skippedStore))) 0
         = Some f2
         /\ isChecked (value f2) = isChecked (value skippedConsent)
         /\ status f2 = filled.
Proof.
  apply (checkbox_click_flips skippedStore 0 skippedConsent). reflexivity.
Defined.

(** ** Completion counts *)





(** ** Completion badge *)

Lemma filter_length_all {A : Type} (p : A -> bool) (l : list A) :
  List.length (filter p l) = List.length l
  <-> forall x, In x l -> p x = true.
Proof.
  induction l as [| x l IH]; simpl; [tauto |].
  pose proof (filter_length_le p l) as Hle.
  destruct (p x) eqn:E; simpl.
  - split.
    + intros H y [<- | Hy]; [exact E | apply IH; [lia | exact Hy]].
    + intros H. f_equal. apply IH. intros y Hy. apply H. right. exact Hy.
  - split; [lia |].
    intros H. specialize (H x (or_introl eq_refl)). congruence.
Qed.

Lemma filter_length_none {A : Type} (p : A -> bool) (l : list A) :
  List.length (filter p l) = 0%nat <-> forall x, In x l -> p x = false.
Proof.
  induction l as [| x l IH]; simpl; [tauto |].
  destruct (p x) eqn:E; simpl.
  - split; [lia |].
    intros H. specialize (H x (or_introl eq_refl)). congruence.
  - split.
    + intros H y [<- | Hy]; [exact E | apply IH; assumption].
    + intros H. apply IH. intros y Hy. apply H. right. exact Hy.
Qed.

Lemma isSettled_iff (f : FieldData) :
  isSettled f = true <-> status f = filled \/ status f = skipped.
Proof.
  unfold isSettled. destruct (status f); simpl; split; intros H;
    try discriminate; auto; destruct H; discriminate.
Qed.

Lemma in_requiredFields (fs : list FieldData) (f : FieldData) :
  In f (requiredFields fs) <-> In f fs /\ required f = true.
Proof. unfold requiredFields. apply filter_In. Qed.

Lemma completionRate_rateOf (fs : list FieldData) (r : nat) :
  List.length (requiredFields fs) = S r ->
  completionRate fs = rateOf (filledRequired fs) (S r).
Proof. unfold completionRate, rateOf. intros ->. reflexivity. Qed.

Lemma badges_ok_below_spec (n r f : nat) :
  badges_ok_below n = true ->
  (r < n)%nat -> (f <= S r)%nat -> badge_ok f (S r) = true.
Proof.
  unfold badges_ok_below. intros H Hr Hf.
  rewrite forallb_forall in H. specialize (H r).
  rewrite forallb_forall in H. apply H; apply in_seq; lia.
Qed.

Lemma badges_ok_table : badges_ok_below 99 = true.
Proof. vm_compute. reflexivity. Qed.

(** X11: on a form with fewer than 100 required fields the completion rate
    is an integer from 0 to 100; it is 100 exactly when every required
    field is filled or skipped, and 0 exactly when there are required
    fields and none of them is. *)
Theorem completion_badge (fs : list FieldData) :
  (List.length (requiredFields fs) < 100)%nat ->
  exists z,
    completionRate fs = Number.of_Z z
    /\ (0 <= z <= 100)%Z
    /\ (z = 100%Z
        <-> forall f, In f fs -> required f = true ->
                      status f = filled \/ status f = skipped)
    /\ (z = 0%Z
        <-> requiredFields fs <> []
            /\ forall f, In f fs -> required f = true ->
                         status f <> filled /\ status f <> skipped).
Proof.
  intros Hlt.
  assert (Hall : filledRequired fs = List.length (requiredFields fs)
                 <-> forall f, In f fs -> required f = true ->
                               status f = filled \/ status f = skipped).
  { unfold filledRequired. rewrite filter_length_all. split.
    - intros H f Hin Hr. apply isSettled_iff, H, in_requiredFields. tauto.
    - intros H f Hin. apply in_requiredFields in Hin.
      apply isSettled_iff, H; tauto. }
  assert (Hnone : filledRequired fs = 0%nat
                  <-> forall f, In f fs -> required f = true ->
                                status f <> filled /\ status f <> skipped).
  { unfold filledRequired. rewrite filter_length_none. split.
    - intros H f Hin Hr.
      assert (E : isSettled f = false) by (apply H, in_requiredFields; tauto).
      split; intros Es; assert (isSettled f = true)
        by (apply isSettled_iff; tauto); congruence.
    - intros H f Hin. apply in_requiredFields in Hin.
      destruct (isSettled f) eqn:E; [| reflexivity].
      apply isSettled_iff in E. destruct (H f) as [H1 H2]; tauto. }
  pose proof (filledRequired_le fs) as Hle.
  destruct (List.length (requiredFields fs)) as [| r] eqn:Er.
  - exists 100%Z. rewrite completionRate_no_required
      by (destruct (requiredFields fs); [reflexivity | discriminate]).
    split; [reflexivity |]. split; [lia |]. split.
    + split; [intros _ | reflexivity]. apply Hall. lia.
    + split; [discriminate |]. intros [Hne _].
      destruct (requiredFields fs); [contradiction | discriminate].
  - assert (H : badge_ok (filledRequired fs) (S r) = true)
      by (apply (badges_ok_below_spec 99 r (filledRequired fs)
                   badges_ok_table); lia).
    unfold badge_ok in H. cbv zeta in H.
    rewrite (completionRate_rateOf fs r Er).
    destruct (integerOf (rateOf (filledRequired fs) (S r))) as [z |];
      [| discriminate H].
    rewrite !andb_true_iff in H.
    destruct H as [[[[H1 H2] H3] H4] H5].
    apply Number_eqb_eq in H1. apply Z.leb_le in H2, H3.
    apply Bool.eqb_prop in H4, H5.
    exists z. split; [exact H1 |]. split; [lia |]. split.
    + rewrite <- Hall, <- Z.eqb_eq, H4, Nat.eqb_eq. reflexivity.
    + rewrite <- Hnone, <- Z.eqb_eq, H5, Nat.eqb_eq.
      split; [intros E; split; [| exact E] | tauto].
      destruct (requiredFields fs); discriminate.
Qed.

Lemma completion_badge_witness :
  exists z,
    completionRate [emptyRequired; filledRequiredField] = Number.of_Z z
    /\ (0 <= z <= 100)%Z
    /\ (z = 100%Z
        <-> forall f, In f [emptyRequired; filledRequiredField] ->
                      required f = true ->
                      status f = filled \/ status f = skipped)
    /\ (z = 0%Z
        <-> requiredFields [emptyRequired; filledRequiredField] <> []
            /\ forall f, In f [emptyRequired; filledRequiredField] ->
                         required f = true ->
                         status f <> filled /\ status f <> skipped).
Proof.
  apply (completion_badge [emptyRequired; filledRequiredField]).
  simpl. lia.
Defined.

(** Some bound is needed: with 200 required fields of which 199 are
    settled the rate shown is already 100. *)
Lemma rateOf_199_of_200 : rateOf 199 200 = Number.of_Z 100.
Proof. vm_compute. reflexivity. Qed.

Lemma filter_length_perm {A : Type} (p : A -> bool) (l l' : list A) :
  Permutation l l' ->
  List.length (filter p l) = List.length (filter p l').
Proof.
  intros H. induction H as [| x l l' _ IH | x y l | l l' l'' _ IH1 _ IH2];
    simpl.
  - reflexivity.
  - destruct (p x); simpl; rewrite IH; reflexivity.
  - destruct (p x), (p y); reflexivity.
  - rewrite IH1. exact IH2.
Qed.

(** X12: the completion rate depends on the required fields only, and not
    on their order: two field lists whose required fields are the same
    up to order have the same rate, whatever optional fields they
    hold. *)
Theorem completion_of_required_only (fs fs' : list FieldData) :
  Permutation (requiredFields fs) (requiredFields fs') ->
  completionRate fs = completionRate fs'.
Proof.
  intros H. unfold completionRate, filledRequired.
  rewrite (Permutation_length H), (filter_length_perm isSettled _ _ H).
  reflexivity.
Qed.

Lemma completion_of_required_only_witness :
  completionRate [emptyRequired; filledRequiredField]
  = completionRate [filledRequiredField; blankBoxed; emptyRequired].
Proof.
  apply (completion_of_required_only
           [emptyRequired; filledRequiredField]
           [filledRequiredField; blankBoxed; emptyRequired]).
  apply perm_swap.
Defined.

(** * Further properties of the compositor *)








(** X14: whatever the browser does, a download never changes the field
    list or the saving flag; without an image URL (absent or empty) it
    changes nothing and draws and saves nothing; otherwise it clears
    the busy flag, and it sets the save message, to the failure
    message, only when no document is saved. *)
Theorem download_frame
  (br : Browser) (imageUrl : option string) (st : State) :
  let r := handleDownloadFilledDoc br imageUrl st in
  fields (fst r) = fields st
  /\ isSaving (fst r) = isSaving st
  /\ (imageUrl = None \/ imageUrl = Some "" ->
      r = (st, mkDownload [] None None))
  /\ (forall url, imageUrl = Some url -> url <> "" ->
      isGeneratingDownload (fst r) = false)
  /\ (saved (snd r) <> None -> saveMessage (fst r) = saveMessage st)
  /\ (saveMessage (fst r) = saveMessage st
      \/ (saveMessage (fst r) = Some downloadFailed
          /\ saved (snd r) = None)).
Proof.
  unfold handleDownloadFilledDoc.
  destruct imageUrl as [url |].
  - destruct url as [| c url]; simpl.
    + repeat split; auto; intuition congruence.
    + destruct (composite br (String c url) (fields st) [])
        as [calls [pdf | msg]]; simpl;
        (split; [| split; [| split; [| split; [| split]]]]);
        auto; try (intuition congruence).
  - simpl. repeat split; auto; intuition congruence.
Qed.



Local Open Scope Q_scope.






Local Close Scope Q_scope.

(** ** Edits and the compositor *)





(** * Upload checks *)

(** X20: the drop zone and the hidden file input of the sidebar accept the
    same files with the same messages: a file is passed on exactly
    when its type starts with ["image/"] or is ["application/pdf"] and
    its size is at most 10485760 bytes; a wrong type is reported
    before an excessive size; and an accepted file clears the error of
    the zone. *)
Theorem upload_checks_agree (file : File) (z : Zone) :
  let accepted :=
    (String.prefix "image/" (file_type file)
     || String.eqb (file_type file) "application/pdf")
    && (file_size file <=? 10485760)%N in
  snd (validateAndPassFile file z) = snd (handleHiddenFileInputChange (Some file))
  /\ zoneError (fst (validateAndPassFile file z))
     = fst (handleHiddenFileInputChange (Some file))
  /\ snd (validateAndPassFile file z)
     = (if accepted then Some file else None)
  /\ (zoneError (fst (validateAndPassFile file z)) = None
      <-> accepted = true)
  /\ (String.prefix "image/" (file_type file)
      || String.eqb (file_type file) "application/pdf" = false ->
      zoneError (fst (validateAndPassFile file z))
      = Some "Please upload an image (JPG, PNG) or PDF.")
  /\ dragActive (fst (validateAndPassFile file z)) = dragActive z.
Proof.
  unfold validateAndPassFile, handleHiddenFileInputChange.
  change (10 * 1024 * 1024)%N with 10485760%N.
  destruct (String.prefix "image/" (file_type file));
    destruct (String.eqb (file_type file) "application/pdf"); simpl;
    try (destruct (N.ltb_spec 10485760 (file_size file));
         destruct (N.leb_spec (file_size file) 10485760); try lia);
    simpl; repeat split; try discriminate; auto.
Qed.

(** After a drop the zone is no longer in the dragging state, whether
    a file came with it or not and whether it was accepted or not. *)
Lemma drop_ends_drag (dropped : option File) (z : Zone) :
  dragActive (fst (handleDrop dropped z)) = false.
Proof.
  unfold handleDrop. destruct dropped as [file |]; [| reflexivity].
  unfold validateAndPassFile.
  destruct (negb (String.prefix "image/" (file_type file))
            && negb (String.eqb (file_type file) "application/pdf"));
    [reflexivity |].
  destruct (10 * 1024 * 1024 <? file_size file)%N; reflexivity.
Qed.

(** * Application state *)

Lemma appStep_invariant (e : AppEvent) (s : Session) :
  appInvariant (shown s) -> appInvariant (shown (appStep e s)).
Proof.
  intros H. destruct e as [file url | [r |] | |]; simpl.
  - split; [discriminate | reflexivity].
  - destruct (pending s); [exact H | simpl; discriminate].
  - destruct (pending s); [exact H | reflexivity].
  - repeat split.
  - unfold handleSidebarClick.
    destruct (appState (shown s)) eqn:E; simpl;
      try (repeat split; fail).
    unfold appInvariant. rewrite E.
    unfold appInvariant in H. rewrite E in H. exact H.
Qed.

Lemma appRun_invariant (es : list AppEvent) (s : Session) :
  appInvariant (shown s) -> appInvariant (shown (appRun es s)).
Proof.
  revert s. induction es as [| e es IH]; intros s H; [exact H |].
  simpl. apply IH. apply appStep_invariant. exact H.
Qed.

(** X21: after any sequence of file selections, settled analyses, resets
    and sidebar clicks, starting from the initial state: in [IDLE]
    there is no file, no analysis and no error; in [ANALYZING] there
    is a file and no error; in [REVIEW] there is an analysis; in
    [ERROR] there is the fixed failure message.  The workspace shows
    one of its four panes unless the state is [REVIEW] without a
    current file. *)
Theorem app_reachable_states (es : list AppEvent) :
  let a := shown (appRun es (mkSession initialApp 0)) in
  (appState a = IDLE ->
   currentFile a = None /\ analysisData a = None /\ errorMsg a = None)
  /\ (appState a = ANALYZING -> currentFile a <> None /\ errorMsg a = None)
  /\ (appState a = REVIEW -> analysisData a <> None)
  /\ (appState a = ERROR -> errorMsg a = Some analysisFailedMsg)
  /\ (workspace a = None <-> appState a = REVIEW /\ currentFile a = None).
Proof.
  intros a.
  assert (H : appInvariant a).
  { apply appRun_invariant. repeat split. }
  unfold appInvariant in H. unfold workspace.
  destruct (appState a) eqn:E.
  - split; [intros _; exact H |].
    do 3 (split; [discriminate |]).
    split; [discriminate | intros [? _]; discriminate].
  - split; [discriminate |]. split; [intros _; exact H |].
    do 2 (split; [discriminate |]).
    destruct H as [Hf _]. destruct (currentFile a); [| contradiction].
    split; [discriminate | intros [? _]; discriminate].
  - do 2 (split; [discriminate |]). split; [intros _; exact H |].
    split; [discriminate |].
    destruct (currentFile a); [| tauto].
    destruct (analysisData a); [| contradiction].
    split; [discriminate | intros [_ ?]; discriminate].
  - do 3 (split; [discriminate |]). split; [intros _; exact H |].
    split; [discriminate | intros [? _]; discriminate].
Qed.

(** X22: a reset does not cancel an analysis in flight: when a file is
    selected, the app is reset and the analysis then settles, the app
    leaves [IDLE] again without a current file, into [REVIEW] where
    the workspace shows no pane, or into [ERROR]. *)
Theorem reset_does_not_cancel_analysis
  (file : File) (url : string) (result : DocumentAnalysis) :
  let start := mkSession initialApp 0 in
  let done := shown (appRun [SelectFile file url; ClickReset;
                             Settle (Some result)] start) in
  let failed := shown (appRun [SelectFile file url; ClickReset;
                               Settle None] start) in
  shown (appRun [SelectFile file url; ClickReset] start) = initialApp
  /\ appState done = REVIEW
  /\ currentFile done = None
  /\ analysisData done = Some result
  /\ workspace done = None
  /\ appState failed = ERROR
  /\ currentFile failed = None.
Proof. repeat split. Qed.

(** * Payload of a data URL *)

Section Split.

Local Open Scope string_scope.

Variable sep : ascii.

Lemma split_no_sep (s : string) :
  contains sep s = false -> split sep s = [s].
Proof.
  induction s as [| c s IH]; simpl; [reflexivity |].
  intros H. apply orb_false_iff in H. destruct H as [Hc Hs].
  rewrite Hc, (IH Hs). reflexivity.
Qed.

Lemma split_at_first (a b : string) :
  contains sep a = false ->
  split sep (a ++ String sep b) = a :: split sep b.
Proof.
  induction a as [| c a IH]; simpl.
  - intros _. rewrite Ascii.eqb_refl. reflexivity.
  - intros H. apply orb_false_iff in H. destruct H as [Hc Ha].
    rewrite Hc, (IH Ha). reflexivity.
Qed.

End Split.

(** X23: [processFile] returns what follows the first comma of the data
    URL up to the next comma: for a header and a payload without
    comma, as in ["data:image/png;base64," ++ payload] with a base64
    payload, it is the payload, also when more follows after a second
    comma; for a result without any comma it is [undefined]. *)
Theorem base64_of_data_url (header payload rest : string) :
  contains "," header = false ->
  contains "," payload = false ->
  base64Of (header ++ "," ++ payload)%string = Some payload
  /\ base64Of (header ++ "," ++ payload ++ "," ++ rest)%string
     = Some payload
  /\ base64Of header = None
  /\ processFile (inl (header ++ "," ++ payload)%string)
     = inl (Some payload).
Proof.
  intros Hh Hp. unfold processFile, base64Of.
  change ("," ++ payload)%string with (String "," payload).
  change ("," ++ payload ++ "," ++ rest)%string
    with (String "," (payload ++ String "," rest))%string.
  rewrite (split_at_first "," header payload Hh).
  rewrite (split_at_first "," header (payload ++ String "," rest) Hh).
  rewrite (split_at_first "," payload rest Hp).
  rewrite (split_no_sep "," payload Hp), (split_no_sep "," header Hh).
  repeat split.
Qed.

Lemma base64_of_data_url_witness :
  base64Of "data:image/png;base64,iVBORw0KGgo=" = Some "iVBORw0KGgo="
  /\ base64Of "data:image/png;base64,iVBORw0KGgo=,x" = Some "iVBORw0KGgo="
  /\ base64Of "data:image/png;base64" = None
  /\ processFile (inl "data:image/png;base64,iVBORw0KGgo=")
     = inl (Some "iVBORw0KGgo=").
Proof.
  apply (base64_of_data_url "data:image/png;base64" "iVBORw0KGgo=" "x");
    reflexivity.
Defined.

(** * Save message *)

(** X24: saving twice gives the state saving once gives, with the saving
    flag cleared.  An edit of any key, known or not, removes the
    message of the last save; a skip leaves it in place, so that the
    message of a failed save stays while the field it counted is being
    skipped. *)
Theorem save_message_lifecycle (st : State) (k v : string) :
  handleSave (handleSave st) = handleSave st
  /\ isSaving (handleSave st) = false
  /\ saveMessage (handleSave st) <> None
  /\ saveMessage (handleFieldChange k v (handleSave st)) = None
  /\ saveMessage (handleSkipField k (handleSave st))
     = saveMessage (handleSave st).
Proof.
  split; [| split; [| split; [| split]]].
  - unfold handleSave. simpl.
    destruct (0 <? List.length (stillMissing (fields st)))%nat eqn:E;
      simpl; rewrite E; reflexivity.
  - unfold handleSave.
    destruct (0 <? List.length (stillMissing (fields st)))%nat; reflexivity.
  - unfold handleSave.
    destruct (0 <? List.length (stillMissing (fields st)))%nat; discriminate.
  - apply saveMessage_handleFieldChange.
  - reflexivity.
Qed.

(** X25: on a form with at least one and fewer than 40 required fields the
    completion rate is the exact percentage of settled required fields
    rounded to the nearest integer, halves up. *)
Theorem completion_rounds_half_up (fs : list FieldData) :
  requiredFields fs <> [] ->
  (List.length (requiredFields fs) < 40)%nat ->
  completionRate fs
  = Number.of_Z
      (Qfloor (inject_Z (100 * Z.of_nat (filledRequired fs))
               / inject_Z (Z.of_nat (List.length (requiredFields fs)))
               + (1 # 2))%Q).
Proof.
  intros Hne Hlt.
  rewrite (completionRate_small_forms fs Hlt).
  rewrite (spec_completion_round fs Hne). reflexivity.
Qed.

Lemma completion_rounds_half_up_witness :
  completionRate [emptyRequired; filledRequiredField]
  = Number.of_Z
      (Qfloor (inject_Z (100 * Z.of_nat
                           (filledRequired
                              [emptyRequired; filledRequiredField]))
               / inject_Z (Z.of_nat
                             (List.length
                                (requiredFields
                                   [emptyRequired; filledRequiredField])))
               + (1 # 2))%Q).
Proof.
  apply (completion_rounds_half_up [emptyRequired; filledRequiredField]).
  - discriminate.
  - simpl. lia.
Defined.
